(** * Early-return guards of [include/gdf-arrow/errorutils.h]

    The header defines three preprocessor macros:

<<
    #define CUDA_TRY(x) if ((x)!=cudaSuccess) return GDF_ARROW_CUDA_ERROR;
    #define CUDA_CHECK_LAST() CUDA_TRY(cudaPeekAtLastError())
    #define GDF_ARROW_REQUIRE(F, S) if (!(F)) return (S);
>>

    Each expands to an [if] statement without [else] whose body is a
    [return].  The macros are embedded as functions from their argument
    expressions to statements; expressions and statements are given a
    state-passing semantics, so that the side effects of the arguments and
    the early exit of the enclosing function are both visible. *)

From Stdlib Require Import ZArith List Lia.
Import ListNotations.

(** ** What the header expects from its includer

    The macros mention three names they do not define.  [cudaSuccess] (of
    type [cudaError_t]) comes from the CUDA runtime headers, and
    [GDF_ARROW_CUDA_ERROR] (of type [gdf_arrow_error]) from the library's
    public header.  Statuses are compared with [!=], hence the decidable
    equality. *)
Class Statuses : Type := {
  cudaError_t : Type;
  cudaSuccess : cudaError_t;
  cudaError_eq_dec : forall a b : cudaError_t, {a = b} + {a <> b};
  gdf_arrow_error : Type;
  GDF_ARROW_CUDA_ERROR : gdf_arrow_error
}.

(** ** Expressions and statements of the enclosing function *)

Section Language.

Context {St : Statuses}.

(** Everything the enclosing function can observe or change: host memory,
    the GPU runtime (its recorded last error included), output streams. *)
Variable State : Type.

(** A C expression of type [A]: evaluating it yields a value and a new
    state. *)
Definition expr (A : Type) : Type := State -> A * State.

(** What executing a statement does to the enclosing function: control
    either falls through to the next statement, or the function returns
    with a status.  Both carry the state reached. *)
Inductive outcome : Type :=
| FallThrough (s : State)
| Returned (v : gdf_arrow_error) (s : State).

Definition stmt : Type := State -> outcome.

(** The state an outcome carries. *)
Definition final_state (o : outcome) : State :=
  match o with
  | FallThrough s => s
  | Returned _ s => s
  end.

(** The status the function returned with, if it did. *)
Definition returned_status (o : outcome) : option gdf_arrow_error :=
  match o with
  | FallThrough _ => None
  | Returned v _ => Some v
  end.

(** [true] when the statement made the function return. *)
Definition has_returned (o : outcome) : bool :=
  match o with
  | FallThrough _ => false
  | Returned _ _ => true
  end.

(** An enumeration constant. *)
Definition c_const {A : Type} (k : A) : expr A := fun s => (k, s).

(** [a != b] on statuses; the left operand is evaluated first (in the
    macro the right operand is a constant, so the order is immaterial). *)
Definition c_ne (a b : expr cudaError_t) : expr bool :=
  fun s =>
    let (va, s1) := a s in
    let (vb, s2) := b s1 in
    (if cudaError_eq_dec va vb then false else true, s2).

(** [!e]. *)
Definition c_not (e : expr bool) : expr bool :=
  fun s => let (v, s1) := e s in (negb v, s1).

(** [return e;]. *)
Definition c_return (e : expr gdf_arrow_error) : stmt :=
  fun s => let (v, s1) := e s in Returned v s1.

(** [if (c) body] with no [else]. *)
Definition c_if (c : expr bool) (body : stmt) : stmt :=
  fun s => let (b, s1) := c s in if b then body s1 else FallThrough s1.

(** [e;] : the expression is evaluated for its effects only. *)
Definition c_expr_stmt {A : Type} (e : expr A) : stmt :=
  fun s => FallThrough (snd (e s)).

(** [a b] : two statements in sequence; [b] runs only when [a] falls
    through. *)
Definition c_seq (a b : stmt) : stmt :=
  fun s =>
    match a s with
    | FallThrough s1 => b s1
    | Returned v s1 => Returned v s1
    end.

(** Calling a function whose body is [body]: the caller sees the returned
    status, or nothing when control reaches the closing brace. *)
Definition call (body : stmt) (s : State) : option gdf_arrow_error * State :=
  let o := body s in (returned_status o, final_state o).

(** ** The macros *)

(** [#define CUDA_TRY(x) if ((x)!=cudaSuccess) return GDF_ARROW_CUDA_ERROR;] *)
Definition CUDA_TRY (x : expr cudaError_t) : stmt :=
  c_if (c_ne x (c_const cudaSuccess))
       (c_return (c_const GDF_ARROW_CUDA_ERROR)).

(** [#define GDF_ARROW_REQUIRE(F, S) if (!(F)) return (S);] *)
Definition GDF_ARROW_REQUIRE (F : expr bool) (S : expr gdf_arrow_error) : stmt :=
  c_if (c_not F) (c_return S).

(** The part of the CUDA runtime that [CUDA_CHECK_LAST] touches: the
    runtime keeps its most recent error somewhere in the state, and
    [cudaPeekAtLastError()] is the entry point the macro calls.  Neither is
    defined by this library, so both are parameters. *)
Class Runtime : Type := {
  cuda_last_error : State -> cudaError_t;
  cudaPeekAtLastError : expr cudaError_t
}.

Context {Rt : Runtime}.

(** [#define CUDA_CHECK_LAST() CUDA_TRY(cudaPeekAtLastError())] *)
Definition CUDA_CHECK_LAST : stmt := CUDA_TRY cudaPeekAtLastError.

(** The last-error check as the specification words it: look at the
    runtime's most recent error and apply the guard logic to it. *)
Definition last_error_check_spec : stmt :=
  fun s =>
    if cudaError_eq_dec (cuda_last_error s) cudaSuccess
    then FallThrough s
    else Returned GDF_ARROW_CUDA_ERROR s.

End Language.

Arguments FallThrough {St State} s.
Arguments Returned {St State} v s.
Arguments final_state {St State} o.
Arguments returned_status {St State} o.
Arguments has_returned {St State} o.
Arguments c_const {State A} k _.
Arguments c_ne {St State} a b _.
Arguments c_not {State} e _.
Arguments c_return {St State} e _.
Arguments c_if {St State} c body _.
Arguments c_expr_stmt {St State A} e _.
Arguments c_seq {St State} a b _.
Arguments call {St State} body s.
Arguments CUDA_TRY {St State} x _.
Arguments GDF_ARROW_REQUIRE {St State} F S _.
Arguments cuda_last_error {St State Runtime} _.
Arguments cudaPeekAtLastError {St State Runtime} _.
Arguments CUDA_CHECK_LAST {St State Rt} _.
Arguments last_error_check_spec {St State Rt} _.

(** ** Counting evaluations

    To observe how often a macro evaluates one of its arguments, the state
    is paired with a counter that the argument bumps each time it is
    evaluated. *)

(** [e], made to count its own evaluations. *)
Definition counted {State A : Type} (e : expr State A) : expr (State * nat) A :=
  fun sn => let (v, s1) := e (fst sn) in (v, (s1, S (snd sn))).

(** [e], run on the paired state without touching the counter. *)
Definition uncounted {State A : Type} (e : expr State A) : expr (State * nat) A :=
  fun sn => let (v, s1) := e (fst sn) in (v, (s1, snd sn)).

(** The counter once the statement is done. *)
Definition evaluations {St : Statuses} {State : Type}
  (o : outcome (State * nat)) : nat :=
  snd (final_state o).

(** ** A small device, to run the macros on

    Statuses are integers, as C enumerations are: [cudaSuccess] is 0 as in
    the CUDA headers, and 1 stands for [GDF_ARROW_CUDA_ERROR] (any value
    would do, the macros never inspect it).  The device remembers its last
    error and how many calls it has served. *)
Module Sample.

#[global] Instance statuses : Statuses := {|
  cudaError_t := Z;
  cudaSuccess := 0%Z;
  cudaError_eq_dec := Z.eq_dec;
  gdf_arrow_error := Z;
  GDF_ARROW_CUDA_ERROR := 1%Z
|}.

Record device : Type := Device {
  last_error : Z;
  served : nat
}.

(** A runtime call that completes with status [code]; a failure is
    remembered by the device. *)
Definition gpu_call (code : Z) : expr device Z :=
  fun d =>
    (code,
     {| last_error := if Z.eqb code 0 then last_error d else code;
        served := S (served d) |}).

(** Reading the remembered error leaves the device as it is. *)
Definition peek : expr device Z := fun d => (last_error d, d).

#[global] Instance runtime : Runtime device := {|
  cuda_last_error := last_error;
  cudaPeekAtLastError := peek
|}.

(** A precondition on a column length [n]. *)
Definition positive (n : Z) : expr device bool := fun d => (Z.ltb 0 n, d).

(** A status expression with an effect of its own. *)
Definition status_with_effect (v : Z) : expr device Z :=
  fun d => (v, {| last_error := last_error d; served := S (served d) |}).

(** Work that follows a guard in the enclosing function. *)
Definition later_work : stmt device :=
  c_seq (c_expr_stmt (gpu_call 0)) (c_return (c_const 0%Z)).

End Sample.

(** ** Function bodies made of guards

    The macros are written one after the other at the top of a function
    body.  Each use is followed by its own [;], which after expansion is
    an empty statement of its own, the macro text already ending in [;]. *)

Section Bodies.

Context {St : Statuses} {State : Type}.

(** [;] : the empty statement. *)
Definition c_skip : stmt State := fun s => FallThrough s.

(** [a == b] on statuses, the left operand first, as for [c_ne]. *)
Definition c_eq (a b : expr State cudaError_t) : expr State bool :=
  fun s =>
    let (va, s1) := a s in
    let (vb, s2) := b s1 in
    (if cudaError_eq_dec va vb then true else false, s2).

(** One use of a macro of the header. *)
Inductive guard : Type :=
| UseTry (x : expr State cudaError_t)
| UseCheckLast
| UseRequire (F : expr State bool) (S : expr State gdf_arrow_error).

Context {Rt : Runtime State}.

(** The statement a use expands to. *)
Definition expand (g : guard) : stmt State :=
  match g with
  | UseTry x => CUDA_TRY x
  | UseCheckLast => CUDA_CHECK_LAST
  | UseRequire F status => GDF_ARROW_REQUIRE F status
  end.

(** The uses [gs], one after the other. *)
Fixpoint guards (gs : list guard) : stmt State :=
  match gs with
  | [] => c_skip
  | g :: rest => c_seq (expand g) (guards rest)
  end.

End Bodies.

Arguments guard {St} State.

(** ** Sample function bodies *)

Module SampleBodies.

Import Sample.

(** The sample runtime, seen from a state that also carries a counter. *)
Definition counting_runtime : Runtime (device * nat) := {|
  cuda_last_error := fun sn => last_error (fst sn);
  cudaPeekAtLastError := uncounted peek
|}.

(** Guards that pass on a fresh device. *)
Definition passing_prologue : list (guard device) :=
  [UseRequire (positive 3) (status_with_effect 5); UseTry (gpu_call 0)].

(** Guards that would come after a failing one. *)
Definition epilogue : list (guard device) :=
  [UseCheckLast; UseRequire (positive 0) (status_with_effect 7)].

(** Two preconditions, the second of which is broken. *)
Definition preconditions : list (expr device bool * expr device Z) :=
  [(positive 3, status_with_effect 5); (positive 0, status_with_effect 7)].

(** Three calls, the second of which fails. *)
Definition three_calls : list (expr device Z) :=
  [gpu_call 0; gpu_call 700; gpu_call 0].

End SampleBodies.

(** ** Closed forms of the macros *)

Section ClosedForms.

Context {St : Statuses} {State : Type}.

Implicit Types (x : expr State cudaError_t) (F : expr State bool).
Implicit Types (S : expr State gdf_arrow_error) (s : State).

Lemma c_ne_const x (k : cudaError_t) s :
  c_ne x (c_const k) s =
  (if cudaError_eq_dec (fst (x s)) k then false else true, snd (x s)).
Proof.
  unfold c_ne, c_const. destruct (x s) as [v s1]. reflexivity.
Qed.

Lemma CUDA_TRY_unfold x s :
  CUDA_TRY x s =
  if cudaError_eq_dec (fst (x s)) cudaSuccess
  then FallThrough (snd (x s))
  else Returned GDF_ARROW_CUDA_ERROR (snd (x s)).
Proof.
  unfold CUDA_TRY, c_if. rewrite c_ne_const.
  destruct (cudaError_eq_dec (fst (x s)) cudaSuccess); reflexivity.
Qed.

Lemma CUDA_TRY_success x s :
  fst (x s) = cudaSuccess -> CUDA_TRY x s = FallThrough (snd (x s)).
Proof.
  intros H. rewrite CUDA_TRY_unfold.
  destruct (cudaError_eq_dec (fst (x s)) cudaSuccess);
    [reflexivity | contradiction].
Qed.

Lemma CUDA_TRY_failure x s :
  fst (x s) <> cudaSuccess ->
  CUDA_TRY x s = Returned GDF_ARROW_CUDA_ERROR (snd (x s)).
Proof.
  intros H. rewrite CUDA_TRY_unfold.
  destruct (cudaError_eq_dec (fst (x s)) cudaSuccess);
    [contradiction | reflexivity].
Qed.

Lemma CUDA_TRY_final_state x s : final_state (CUDA_TRY x s) = snd (x s).
Proof.
  rewrite CUDA_TRY_unfold.
  destruct (cudaError_eq_dec (fst (x s)) cudaSuccess); reflexivity.
Qed.

Lemma GDF_ARROW_REQUIRE_unfold F S s :
  GDF_ARROW_REQUIRE F S s =
  if fst (F s)
  then FallThrough (snd (F s))
  else Returned (fst (S (snd (F s)))) (snd (S (snd (F s)))).
Proof.
  unfold GDF_ARROW_REQUIRE, c_if, c_not, c_return.
  destruct (F s) as [b s1]; destruct b; simpl; [reflexivity|].
  destruct (S s1); reflexivity.
Qed.

End ClosedForms.

(** ** The counter under the macros *)

Section Counting.

Context {St : Statuses} {State : Type}.

Implicit Types (x : expr State cudaError_t) (s : State).

Lemma counted_fst {A : Type} (e : expr State A) s (n : nat) :
  fst (counted e (s, n)) = fst (e s).
Proof. unfold counted; simpl. destruct (e s); reflexivity. Qed.

Lemma counted_snd {A : Type} (e : expr State A) s (n : nat) :
  snd (counted e (s, n)) = (snd (e s), n + 1).
Proof.
  unfold counted; simpl. destruct (e s); simpl.
  rewrite Nat.add_1_r. reflexivity.
Qed.

Lemma uncounted_fst {A : Type} (e : expr State A) s (n : nat) :
  fst (uncounted e (s, n)) = fst (e s).
Proof. unfold uncounted; simpl. destruct (e s); reflexivity. Qed.

Lemma uncounted_snd {A : Type} (e : expr State A) s (n : nat) :
  snd (uncounted e (s, n)) = (snd (e s), n).
Proof. unfold uncounted; simpl. destruct (e s); reflexivity. Qed.

Lemma CUDA_TRY_counted x s (n : nat) :
  evaluations (CUDA_TRY (counted x) (s, n)) = n + 1.
Proof.
  unfold evaluations. rewrite CUDA_TRY_final_state, counted_snd. reflexivity.
Qed.

End Counting.

(** ** Properties of the guards *)

Section Guards.

Context {St : Statuses} {State : Type}.

Implicit Types (x : expr State cudaError_t) (F : expr State bool).
Implicit Types (S : expr State gdf_arrow_error) (s : State).
Implicit Types (rest : stmt State).

(** C1: when [x] evaluates to a status other than [cudaSuccess],
    [CUDA_TRY(x)] makes the enclosing function return
    [GDF_ARROW_CUDA_ERROR] at once: whatever statements [rest] follow the
    macro, the function's result is that status and the state is the one
    [x] left, so nothing of [rest] has run. *)
Theorem CUDA_TRY_failure_returns_at_once x rest s :
  fst (x s) <> cudaSuccess ->
  CUDA_TRY x s = Returned GDF_ARROW_CUDA_ERROR (snd (x s)) /\
  c_seq (CUDA_TRY x) rest s = Returned GDF_ARROW_CUDA_ERROR (snd (x s)) /\
  call (c_seq (CUDA_TRY x) rest) s = (Some GDF_ARROW_CUDA_ERROR, snd (x s)).
Proof.
  intros Hx. pose proof (CUDA_TRY_failure x s Hx) as E.
  unfold call, c_seq. rewrite E. simpl. repeat split.
Qed.

(** C2: [GDF_ARROW_REQUIRE(F, S)] makes the enclosing function return
    exactly when [F] evaluates to false, and the status returned is then
    the value of [S]; when [F] evaluates to true the function goes on as
    if the macro were the bare expression statement [F;], whatever [rest]
    follows. *)
Theorem GDF_ARROW_REQUIRE_returns_iff_false F S rest s :
  (has_returned (GDF_ARROW_REQUIRE F S s) = true <-> fst (F s) = false) /\
  (fst (F s) = false ->
   returned_status (GDF_ARROW_REQUIRE F S s) = Some (fst (S (snd (F s)))) /\
   call (c_seq (GDF_ARROW_REQUIRE F S) rest) s =
     (Some (fst (S (snd (F s)))), snd (S (snd (F s))))) /\
  (fst (F s) = true ->
   GDF_ARROW_REQUIRE F S s = FallThrough (snd (F s)) /\
   c_seq (GDF_ARROW_REQUIRE F S) rest s = c_seq (c_expr_stmt F) rest s).
Proof.
  unfold call, c_seq, c_expr_stmt. rewrite GDF_ARROW_REQUIRE_unfold.
  destruct (fst (F s)); simpl; repeat split;
    try reflexivity; intros; discriminate.
Qed.

(** C4: when [x] evaluates to [cudaSuccess], [CUDA_TRY(x)] does not
    return; the state is the one [x] left, and the function goes on
    exactly as it would with the bare expression statement [x;] in the
    macro's place. *)
Theorem CUDA_TRY_success_continues x rest s :
  fst (x s) = cudaSuccess ->
  CUDA_TRY x s = FallThrough (snd (x s)) /\
  c_seq (CUDA_TRY x) rest s = c_seq (c_expr_stmt x) rest s /\
  call (c_seq (CUDA_TRY x) rest) s = call (c_seq (c_expr_stmt x) rest) s.
Proof.
  intros Hx. pose proof (CUDA_TRY_success x s Hx) as E.
  unfold call, c_seq, c_expr_stmt. rewrite E. repeat split.
Qed.

(** C5: the status [CUDA_TRY] returns on failure is one fixed value: two
    failing uses, with whatever arguments and from whatever states, return
    the same status, [GDF_ARROW_CUDA_ERROR]. *)
Theorem CUDA_TRY_status_is_fixed x1 x2 (s1 s2 : State) :
  fst (x1 s1) <> cudaSuccess ->
  fst (x2 s2) <> cudaSuccess ->
  returned_status (CUDA_TRY x1 s1) = returned_status (CUDA_TRY x2 s2) /\
  returned_status (CUDA_TRY x1 s1) = Some GDF_ARROW_CUDA_ERROR.
Proof.
  intros H1 H2.
  rewrite (CUDA_TRY_failure x1 s1 H1), (CUDA_TRY_failure x2 s2 H2).
  split; reflexivity.
Qed.

(** C7: [CUDA_TRY(x)] evaluates [x] exactly once on either path: the state
    after the macro is the state after one evaluation of [x], and an
    argument that counts its evaluations has counted one more. *)
Theorem CUDA_TRY_evaluates_argument_once x s (n : nat) :
  final_state (CUDA_TRY x s) = snd (x s) /\
  evaluations (CUDA_TRY (counted x) (s, n)) = n + 1.
Proof.
  split; [apply CUDA_TRY_final_state | apply CUDA_TRY_counted].
Qed.

(** C8: [GDF_ARROW_REQUIRE(F, S)] evaluates [S] only when [F] evaluates to
    false: a status expression that counts its evaluations has counted
    none when [F] holds and one when it does not, and when [F] holds the
    state is the one [F] left. *)
Theorem GDF_ARROW_REQUIRE_status_evaluated_on_failure_only F S s (n : nat) :
  evaluations (GDF_ARROW_REQUIRE (uncounted F) (counted S) (s, n)) =
    (if fst (F s) then n else n + 1) /\
  final_state (GDF_ARROW_REQUIRE F S s) =
    (if fst (F s) then snd (F s) else snd (S (snd (F s)))).
Proof.
  unfold evaluations. rewrite !GDF_ARROW_REQUIRE_unfold.
  rewrite uncounted_fst, uncounted_snd.
  destruct (fst (F s)); simpl; [split; reflexivity|].
  rewrite counted_snd. split; reflexivity.
Qed.

Context {Rt : Runtime State}.

(** C3: [CUDA_CHECK_LAST()] is [CUDA_TRY] applied to
    [cudaPeekAtLastError()]; given that this runtime call reports the
    recorded error and leaves the state alone, the macro agrees, in every
    state, with looking at the recorded error and applying the guard
    logic to it: same outcome, same status, same state. *)
Theorem CUDA_CHECK_LAST_refines_spec :
  (forall s, cudaPeekAtLastError s = (cuda_last_error s, s)) ->
  forall s,
    CUDA_CHECK_LAST s = CUDA_TRY cudaPeekAtLastError s /\
    CUDA_CHECK_LAST s = last_error_check_spec s.
Proof.
  intros Hpeek s. split; [reflexivity|].
  unfold CUDA_CHECK_LAST, last_error_check_spec.
  rewrite CUDA_TRY_unfold, Hpeek. reflexivity.
Qed.

(** C6: on the failure path each guard does one early return and nothing
    more: the state returned with is the state its argument expressions
    left, each evaluated once ([x] for [CUDA_TRY], the runtime query for
    [CUDA_CHECK_LAST], [F] then [S] for [GDF_ARROW_REQUIRE]); an argument
    that counts its evaluations has counted one. *)
Theorem guards_fail_by_one_return_only :
  (forall x s (n : nat),
     fst (x s) <> cudaSuccess ->
     CUDA_TRY x s = Returned GDF_ARROW_CUDA_ERROR (snd (x s)) /\
     evaluations (CUDA_TRY (counted x) (s, n)) = n + 1) /\
  (forall s,
     fst (cudaPeekAtLastError s) <> cudaSuccess ->
     CUDA_CHECK_LAST s =
       Returned GDF_ARROW_CUDA_ERROR (snd (cudaPeekAtLastError s))) /\
  (forall F S s (n : nat),
     fst (F s) = false ->
     GDF_ARROW_REQUIRE F S s =
       Returned (fst (S (snd (F s)))) (snd (S (snd (F s)))) /\
     evaluations (GDF_ARROW_REQUIRE (counted F) (uncounted S) (s, n)) = n + 1 /\
     evaluations (GDF_ARROW_REQUIRE (uncounted F) (counted S) (s, n)) = n + 1).
Proof.
  split; [|split].
  - intros x s n Hx. split; [apply CUDA_TRY_failure, Hx | apply CUDA_TRY_counted].
  - intros s Hs. apply CUDA_TRY_failure, Hs.
  - intros F S s n HF. unfold evaluations.
    rewrite !GDF_ARROW_REQUIRE_unfold.
    rewrite counted_fst, counted_snd, !uncounted_fst, uncounted_snd, HF. simpl.
    rewrite uncounted_snd, counted_snd. repeat split.
Qed.

(** C9: [CUDA_CHECK_LAST()] does nothing to the state beyond the one call
    of [cudaPeekAtLastError()]; given that this call leaves the recorded
    last error as it is, the recorded error after the check is the one
    before it, whether the check returns or falls through. *)
Theorem CUDA_CHECK_LAST_keeps_last_error :
  (forall s, cuda_last_error (snd (cudaPeekAtLastError s)) = cuda_last_error s) ->
  forall s,
    final_state (CUDA_CHECK_LAST s) = snd (cudaPeekAtLastError s) /\
    cuda_last_error (final_state (CUDA_CHECK_LAST s)) = cuda_last_error s.
Proof.
  intros Hpeek s. unfold CUDA_CHECK_LAST.
  rewrite CUDA_TRY_final_state. split; [reflexivity | apply Hpeek].
Qed.

End Guards.

(** ** The guards on the sample device *)

Module SampleRuns.

Import Sample.

Example CUDA_TRY_on_failing_call :
  CUDA_TRY (gpu_call 700) (Device 0 0) = Returned 1%Z (Device 700 1).
Proof. reflexivity. Qed.

Example CUDA_TRY_on_successful_call :
  CUDA_TRY (gpu_call 0) (Device 0 0) = FallThrough (Device 0 1).
Proof. reflexivity. Qed.

Example CUDA_TRY_then_later_work_on_failure :
  call (c_seq (CUDA_TRY (gpu_call 700)) later_work) (Device 0 0) =
  (Some 1%Z, Device 700 1).
Proof. reflexivity. Qed.

Example CUDA_TRY_then_later_work_on_success :
  call (c_seq (CUDA_TRY (gpu_call 0)) later_work) (Device 0 0) =
  (Some 0%Z, Device 0 2).
Proof. reflexivity. Qed.

Example CUDA_CHECK_LAST_on_pending_error :
  CUDA_CHECK_LAST (Device 700 3) = Returned 1%Z (Device 700 3).
Proof. reflexivity. Qed.

Example CUDA_CHECK_LAST_on_clean_device :
  CUDA_CHECK_LAST (Device 0 3) = FallThrough (Device 0 3).
Proof. reflexivity. Qed.

Example GDF_ARROW_REQUIRE_on_broken_precondition :
  GDF_ARROW_REQUIRE (positive 0) (status_with_effect 5) (Device 0 0) =
  Returned 5%Z (Device 0 1).
Proof. reflexivity. Qed.

Example GDF_ARROW_REQUIRE_on_met_precondition :
  GDF_ARROW_REQUIRE (positive 3) (status_with_effect 5) (Device 0 0) =
  FallThrough (Device 0 0).
Proof. reflexivity. Qed.

Lemma CUDA_TRY_failure_returns_at_once_witness :
  fst (gpu_call 700 (Device 0 0)) <> cudaSuccess /\
  call (c_seq (CUDA_TRY (gpu_call 700)) later_work) (Device 0 0) =
    (Some GDF_ARROW_CUDA_ERROR, Device 700 1).
Proof.
  assert (H : fst (gpu_call 700 (Device 0 0)) <> cudaSuccess)
    by (simpl; discriminate).
  split; [exact H|].
  apply (CUDA_TRY_failure_returns_at_once (St := statuses) (gpu_call 700) later_work (Device 0 0) H).
Defined.

Lemma GDF_ARROW_REQUIRE_returns_iff_false_witness :
  (has_returned
     (GDF_ARROW_REQUIRE (positive 0) (status_with_effect 5) (Device 0 0)) = true /\
   returned_status
     (GDF_ARROW_REQUIRE (positive 0) (status_with_effect 5) (Device 0 0)) =
     Some 5%Z) /\
  c_seq (GDF_ARROW_REQUIRE (positive 3) (status_with_effect 5)) later_work
    (Device 0 0) =
  c_seq (c_expr_stmt (positive 3)) later_work (Device 0 0).
Proof.
  split.
  - destruct (GDF_ARROW_REQUIRE_returns_iff_false (St := statuses)
                (positive 0) (status_with_effect 5) later_work (Device 0 0))
      as [Hiff [Hfalse _]].
    split; [apply Hiff; reflexivity | apply Hfalse; reflexivity].
  - destruct (GDF_ARROW_REQUIRE_returns_iff_false (St := statuses)
                (positive 3) (status_with_effect 5) later_work (Device 0 0))
      as [_ [_ Htrue]].
    apply Htrue; reflexivity.
Defined.

Lemma CUDA_CHECK_LAST_refines_spec_witness :
  (forall d : device, cudaPeekAtLastError d = (cuda_last_error d, d)) /\
  CUDA_CHECK_LAST (Device 700 3) = last_error_check_spec (Device 700 3) /\
  CUDA_CHECK_LAST (Device 0 3) = last_error_check_spec (Device 0 3).
Proof.
  assert (H : forall d : device, cudaPeekAtLastError d = (cuda_last_error d, d))
    by (intros d; reflexivity).
  split; [exact H|].
  split; apply (CUDA_CHECK_LAST_refines_spec (St := statuses) (Rt := runtime) H).
Defined.

Lemma CUDA_TRY_success_continues_witness :
  fst (gpu_call 0 (Device 0 0)) = cudaSuccess /\
  call (c_seq (CUDA_TRY (gpu_call 0)) later_work) (Device 0 0) =
  call (c_seq (c_expr_stmt (gpu_call 0)) later_work) (Device 0 0).
Proof.
  assert (H : fst (gpu_call 0 (Device 0 0)) = cudaSuccess) by reflexivity.
  split; [exact H|].
  apply (CUDA_TRY_success_continues (St := statuses) (gpu_call 0) later_work (Device 0 0) H).
Defined.

Lemma CUDA_TRY_status_is_fixed_witness :
  fst (gpu_call 2 (Device 0 0)) <> cudaSuccess /\
  fst (gpu_call 700 (Device 2 9)) <> cudaSuccess /\
  returned_status (CUDA_TRY (gpu_call 2) (Device 0 0)) =
  returned_status (CUDA_TRY (gpu_call 700) (Device 2 9)).
Proof.
  assert (H1 : fst (gpu_call 2 (Device 0 0)) <> cudaSuccess)
    by (simpl; discriminate).
  assert (H2 : fst (gpu_call 700 (Device 2 9)) <> cudaSuccess)
    by (simpl; discriminate).
  split; [exact H1|]. split; [exact H2|].
  apply (CUDA_TRY_status_is_fixed (St := statuses)
           (gpu_call 2) (gpu_call 700) (Device 0 0) (Device 2 9) H1 H2).
Defined.

Lemma guards_fail_by_one_return_only_witness :
  CUDA_TRY (gpu_call 700) (Device 0 0) =
    Returned GDF_ARROW_CUDA_ERROR (Device 700 1) /\
  CUDA_CHECK_LAST (Device 700 3) =
    Returned GDF_ARROW_CUDA_ERROR (Device 700 3) /\
  GDF_ARROW_REQUIRE (positive 0) (status_with_effect 5) (Device 0 0) =
    Returned 5%Z (Device 0 1).
Proof.
  destruct (@guards_fail_by_one_return_only statuses device runtime)
    as [Htry [Hlast Hreq]].
  split; [|split].
  - apply (Htry (gpu_call 700) (Device 0 0) 0). simpl; discriminate.
  - apply (Hlast (Device 700 3)). simpl; discriminate.
  - apply (Hreq (positive 0) (status_with_effect 5) (Device 0 0) 0). reflexivity.
Defined.

Lemma CUDA_CHECK_LAST_keeps_last_error_witness :
  (forall d : device,
     cuda_last_error (snd (cudaPeekAtLastError d)) = cuda_last_error d) /\
  cuda_last_error (final_state (CUDA_CHECK_LAST (Device 700 3))) = 700%Z /\
  cuda_last_error (final_state (CUDA_CHECK_LAST (Device 0 3))) = 0%Z.
Proof.
  assert (H : forall d : device,
             cuda_last_error (snd (cudaPeekAtLastError d)) = cuda_last_error d)
    by (intros d; reflexivity).
  split; [exact H|].
  split; apply (CUDA_CHECK_LAST_keeps_last_error (St := statuses) (Rt := runtime) H).
Defined.

End SampleRuns.

(** ** Sequences of guards *)

Section GuardSequences.

Context {St : Statuses} {State : Type} {Rt : Runtime State}.

Implicit Types (x : expr State cudaError_t) (F : expr State bool).
Implicit Types (S : expr State gdf_arrow_error) (s : State).
Implicit Types (g : guard State) (gs pre post : list (guard State)).




Lemma expand_returned g s v s1 :
  expand g s = Returned v s1 ->
  v = GDF_ARROW_CUDA_ERROR \/
  exists F S, g = UseRequire F S /\ v = fst (S (snd (F s))).
Proof.
  destruct g as [x| |F S]; simpl.
  - rewrite CUDA_TRY_unfold.
    destruct (cudaError_eq_dec (fst (x s)) cudaSuccess); [discriminate|].
    intros E; injection E as <- _. left; reflexivity.
  - unfold CUDA_CHECK_LAST. rewrite CUDA_TRY_unfold.
    destruct (cudaError_eq_dec (fst (cudaPeekAtLastError s)) cudaSuccess);
      [discriminate|].
    intros E; injection E as <- _. left; reflexivity.
  - rewrite GDF_ARROW_REQUIRE_unfold.
    destruct (fst (F s)); [discriminate|].
    intros E; injection E as <- _. right. exists F, S. split; reflexivity.
Qed.


(** X2: a sequence of guards returns no status of its own making: a status
    it returns is [GDF_ARROW_CUDA_ERROR] or a value of the status
    expression of one of its [GDF_ARROW_REQUIRE] uses. *)
Theorem guards_status_taxonomy gs s v s1 :
  guards gs s = Returned v s1 ->
  v = GDF_ARROW_CUDA_ERROR \/
  exists F S s0, In (UseRequire F S) gs /\ v = fst (S s0).
Proof.
  revert s. induction gs as [|g gs IH]; intros s; simpl.
  - discriminate.
  - unfold c_seq. destruct (expand g s) as [s2|w s2] eqn:Eg.
    + intros E. destruct (IH _ E) as [H|(F & S & s0 & Hin & Hv)].
      * left; exact H.
      * right. exists F, S, s0. split; [right; exact Hin | exact Hv].
    + intros E; injection E as <- _.
      destruct (expand_returned _ _ _ _ Eg) as [H|(F & S & -> & Hv)].
      * left; exact H.
      * right. exists F, S, (snd (F s)). split; [left; reflexivity | exact Hv].
Qed.

(** X4: a prologue of [GDF_ARROW_REQUIRE] guards whose conditions have no
    side effect in state [s] returns exactly when one of the conditions is
    false in [s]; when all of them hold it falls through and leaves [s] as
    it was, no status expression having been evaluated. *)
Theorem pure_requirements_pass_iff_all_hold
  (fs : list (expr State bool * expr State gdf_arrow_error)) s :
  Forall (fun p => snd (fst p s) = s) fs ->
  has_returned (guards (map (fun p => UseRequire (fst p) (snd p)) fs) s) =
    negb (forallb (fun p => fst (fst p s)) fs) /\
  (forallb (fun p => fst (fst p s)) fs = true ->
   guards (map (fun p => UseRequire (fst p) (snd p)) fs) s = FallThrough s).
Proof.
  induction fs as [|[F S] fs IH]; intros Hpure; simpl.
  - split; reflexivity.
  - inversion Hpure as [|p l HF Hrest]; subst. simpl in HF.
    destruct (IH Hrest) as [IHret IHpass].
    unfold c_seq. rewrite GDF_ARROW_REQUIRE_unfold.
    destruct (fst (F s)); simpl.
    + rewrite HF. split; assumption.
    + split; [reflexivity | discriminate].
Qed.

(** X5: [CUDA_TRY(x)] is the requirement that [x] equal [cudaSuccess],
    with [GDF_ARROW_CUDA_ERROR] as its status: it behaves in every state
    as [GDF_ARROW_REQUIRE((x)==cudaSuccess, GDF_ARROW_CUDA_ERROR)]. *)
Theorem CUDA_TRY_is_a_requirement x s :
  CUDA_TRY x s =
  GDF_ARROW_REQUIRE (c_eq x (c_const cudaSuccess))
                    (c_const GDF_ARROW_CUDA_ERROR) s.
Proof.
  rewrite CUDA_TRY_unfold, GDF_ARROW_REQUIRE_unfold.
  unfold c_eq, c_const. destruct (x s) as [v s1]; simpl.
  destruct (cudaError_eq_dec v cudaSuccess); reflexivity.
Qed.

(** X6: [CUDA_CHECK_LAST()] does not use up the error it reports: given
    that [cudaPeekAtLastError()] reports the recorded error and leaves the
    state alone, checking again in the state a check left gives the same
    outcome, and two checks in a row behave as one. *)
Theorem CUDA_CHECK_LAST_does_not_consume_error :
  (forall s, cudaPeekAtLastError s = (cuda_last_error s, s)) ->
  forall s,
    CUDA_CHECK_LAST (final_state (CUDA_CHECK_LAST s)) = CUDA_CHECK_LAST s /\
    c_seq CUDA_CHECK_LAST CUDA_CHECK_LAST s = CUDA_CHECK_LAST s.
Proof.
  intros Hpeek.
  assert (Hc : forall s,
             CUDA_CHECK_LAST s =
             if cudaError_eq_dec (cuda_last_error s) cudaSuccess
             then FallThrough s
             else Returned GDF_ARROW_CUDA_ERROR s).
  { intros s. unfold CUDA_CHECK_LAST. rewrite CUDA_TRY_unfold, Hpeek.
    reflexivity. }
  intros s. unfold c_seq. rewrite (Hc s).
  destruct (cudaError_eq_dec (cuda_last_error s) cudaSuccess) as [E|E] eqn:D;
    simpl; rewrite ?Hc, ?D; split; reflexivity.
Qed.

(** X7: swapping two [GDF_ARROW_REQUIRE] guards whose conditions have no
    side effect in state [s] never changes whether the function returns
    (it does unless both conditions hold), only which status it reports:
    when both conditions fail, each order reports the status of the guard
    written first. *)
Theorem pure_requirements_swap F1 S1 F2 S2 s :
  snd (F1 s) = s ->
  snd (F2 s) = s ->
  has_returned (c_seq (GDF_ARROW_REQUIRE F1 S1) (GDF_ARROW_REQUIRE F2 S2) s) =
    has_returned (c_seq (GDF_ARROW_REQUIRE F2 S2) (GDF_ARROW_REQUIRE F1 S1) s) /\
  has_returned (c_seq (GDF_ARROW_REQUIRE F1 S1) (GDF_ARROW_REQUIRE F2 S2) s) =
    negb (fst (F1 s) && fst (F2 s)) /\
  (fst (F1 s) = false -> fst (F2 s) = false ->
   returned_status
     (c_seq (GDF_ARROW_REQUIRE F1 S1) (GDF_ARROW_REQUIRE F2 S2) s) =
     Some (fst (S1 s)) /\
   returned_status
     (c_seq (GDF_ARROW_REQUIRE F2 S2) (GDF_ARROW_REQUIRE F1 S1) s) =
     Some (fst (S2 s))).
Proof.
  intros H1 H2. unfold c_seq. rewrite !GDF_ARROW_REQUIRE_unfold.
  destruct (fst (F1 s)) eqn:E1; destruct (fst (F2 s)) eqn:E2;
    rewrite ?H1, ?H2, ?GDF_ARROW_REQUIRE_unfold, ?E1, ?E2, ?H1, ?H2; simpl;
    repeat split; intros; try discriminate; reflexivity.
Qed.

End GuardSequences.

(** ** Counting the calls of a sequence of [CUDA_TRY] guards *)

Section GuardSequenceCounting.

Context {St : Statuses} {State : Type} {Rt : Runtime (State * nat)}.

(** X3: in a sequence of [CUDA_TRY] guards every wrapped call is made at
    most once: calls that count themselves count at most as many as there
    are guards, exactly that many when the sequence falls through, and at
    least one when it returns. *)
Theorem CUDA_TRY_sequence_call_count
  (xs : list (expr State cudaError_t)) (s : State) (n : nat) :
  evaluations (guards (map (fun x => UseTry (counted x)) xs) (s, n))
    <= n + length xs /\
  (has_returned (guards (map (fun x => UseTry (counted x)) xs) (s, n)) = false ->
   evaluations (guards (map (fun x => UseTry (counted x)) xs) (s, n))
     = n + length xs) /\
  (has_returned (guards (map (fun x => UseTry (counted x)) xs) (s, n)) = true ->
   n + 1 <= evaluations (guards (map (fun x => UseTry (counted x)) xs) (s, n))).
Proof.
  revert s n. induction xs as [|x xs IH]; intros s n; simpl.
  - unfold evaluations; simpl. repeat split; try lia; discriminate.
  - unfold c_seq. rewrite CUDA_TRY_unfold, counted_fst, counted_snd.
    destruct (cudaError_eq_dec (fst (x s)) cudaSuccess).
    + destruct (IH (snd (x s)) (n + 1)) as [Hle [Hpass Hret]].
      repeat split.
      * lia.
      * intros H. rewrite (Hpass H). lia.
      * intros H. specialize (Hret H). lia.
    + unfold evaluations; simpl. repeat split; try lia; discriminate.
Qed.

End GuardSequenceCounting.

(** ** Sequences of guards on the sample device *)

Module SequenceRuns.

Import Sample SampleBodies.

Example guards_stop_at_the_failing_call :
  guards (passing_prologue ++ UseTry (gpu_call 700) :: epilogue) (Device 0 0) =
  Returned 1%Z (Device 700 2).
Proof. reflexivity. Qed.

Example guards_all_passing :
  guards (passing_prologue ++ [UseCheckLast]) (Device 0 0) =
  FallThrough (Device 0 1).
Proof. reflexivity. Qed.

Example three_calls_count :
  evaluations
    (guards (Rt := counting_runtime)
       (map (fun x => UseTry (counted x)) three_calls) (Device 0 0, 0)) = 2.
Proof. reflexivity. Qed.


Lemma guards_status_taxonomy_witness :
  guards (UseRequire (positive 0) (status_with_effect 7) :: passing_prologue)
    (Device 0 0) = Returned 7%Z (Device 0 1) /\
  (7%Z = GDF_ARROW_CUDA_ERROR \/
   exists F S s0,
     In (UseRequire F S)
        (UseRequire (positive 0) (status_with_effect 7) :: passing_prologue) /\
     7%Z = fst (S s0)).
Proof.
  assert (H : guards
                (UseRequire (positive 0) (status_with_effect 7) :: passing_prologue)
                (Device 0 0) = Returned 7%Z (Device 0 1)) by reflexivity.
  split; [exact H|].
  apply (guards_status_taxonomy (St := statuses) (Rt := runtime) _ _ _ _ H).
Defined.

Lemma CUDA_TRY_sequence_call_count_witness :
  has_returned
    (guards (Rt := counting_runtime)
       (map (fun x => UseTry (counted x)) three_calls) (Device 0 0, 0)) = true /\
  1 <= evaluations
         (guards (Rt := counting_runtime)
            (map (fun x => UseTry (counted x)) three_calls) (Device 0 0, 0)) <= 3.
Proof.
  destruct (CUDA_TRY_sequence_call_count (St := statuses) (Rt := counting_runtime)
              three_calls (Device 0 0) 0) as [Hle [_ Hret]].
  split; [reflexivity|].
  split; [apply Hret; reflexivity | exact Hle].
Defined.

Lemma pure_requirements_pass_iff_all_hold_witness :
  Forall (fun p : expr device bool * expr device Z =>
            snd (fst p (Device 0 0)) = Device 0 0) preconditions /\
  has_returned
    (guards (map (fun p => UseRequire (fst p) (snd p)) preconditions)
       (Device 0 0)) = true.
Proof.
  assert (H : Forall (fun p : expr device bool * expr device Z =>
                        snd (fst p (Device 0 0)) = Device 0 0) preconditions)
    by (repeat constructor).
  split; [exact H|].
  exact (proj1 (pure_requirements_pass_iff_all_hold (St := statuses)
                  (Rt := runtime) preconditions (Device 0 0) H)).
Defined.

Lemma CUDA_CHECK_LAST_does_not_consume_error_witness :
  (forall d : device, cudaPeekAtLastError d = (cuda_last_error d, d)) /\
  CUDA_CHECK_LAST (final_state (CUDA_CHECK_LAST (Device 700 3))) =
    CUDA_CHECK_LAST (Device 700 3) /\
  c_seq CUDA_CHECK_LAST CUDA_CHECK_LAST (Device 700 3) =
    CUDA_CHECK_LAST (Device 700 3).
Proof.
  assert (H : forall d : device, cudaPeekAtLastError d = (cuda_last_error d, d))
    by (intros d; reflexivity).
  split; [exact H|].
  apply (CUDA_CHECK_LAST_does_not_consume_error (St := statuses) (Rt := runtime) H).
Defined.

Lemma pure_requirements_swap_witness :
  snd (positive 0 (Device 0 0)) = Device 0 0 /\
  snd (positive (-1) (Device 0 0)) = Device 0 0 /\
  returned_status
    (c_seq (GDF_ARROW_REQUIRE (positive 0) (c_const 5%Z))
           (GDF_ARROW_REQUIRE (positive (-1)) (c_const 7%Z)) (Device 0 0)) =
    Some 5%Z /\
  returned_status
    (c_seq (GDF_ARROW_REQUIRE (positive (-1)) (c_const 7%Z))
           (GDF_ARROW_REQUIRE (positive 0) (c_const 5%Z)) (Device 0 0)) =
    Some 7%Z.
Proof.
  assert (H1 : snd (positive 0 (Device 0 0)) = Device 0 0) by reflexivity.
  assert (H2 : snd (positive (-1) (Device 0 0)) = Device 0 0) by reflexivity.
  split; [exact H1|]. split; [exact H2|].
  destruct (pure_requirements_swap (St := statuses)
              (positive 0) (c_const 5%Z) (positive (-1)) (c_const 7%Z)
              (Device 0 0) H1 H2) as [_ [_ Hboth]].
  apply Hboth; reflexivity.
Defined.

End SequenceRuns.
